(** * The authentication service of the backend

    A shallow embedding of [backend/app/services/authentication.py]: the
    credential hasher ([generate_salt], [hash_password], [verify_password],
    [create_salt_and_hashed_password]), the token issuer and validator
    ([create_access_token_for_user], [get_email_from_token]) and their
    composition [authenticate_user].

    The service is glue over three libraries (passlib, PyJWT, pydantic), the
    standard library's [datetime] and the wall clock.  The libraries are
    given a reference semantics for the calls the service makes; their
    cryptographic primitives (the bcrypt block function, the signing
    function) stay parameters, and so does what depends on the host: its
    time zone rules and the algorithms and keys its signing library takes. *)

From Stdlib Require Import ZArith String Ascii List Lia.
From stdpp Require Import base option gmap strings.

(** ** Exceptions and outcomes *)

(** The subclasses of [jwt.PyJWTError] that [jwt.decode] raises. *)
Inductive JWTErrorKind :=
| DecodeError
| InvalidAlgorithmError
| InvalidKeyError
| InvalidSignatureError
| InvalidIssuedAtError
| ImmatureSignatureError
| ExpiredSignatureError
| MissingRequiredClaimError
| InvalidAudienceError.

(** The exceptions that travel through the service.  [UnknownHashError] is
    passlib's refusal of a hash no configured scheme identifies;
    [ValueError] stands for every other [ValueError] of the bcrypt handler
    (a malformed hash, a password with a NUL byte, a password over the size
    limit); [OverflowError] is the one of [datetime] and [timedelta]. *)
Inductive exn :=
| HTTPException (status_code : Z) (detail : string)
                (headers : list (string * string))
| PyJWTError (kind : JWTErrorKind)
| ValidationError
| UnknownHashError
| ValueError
| OverflowError
| NotImplementedError.

(** A Python call either returns a value or raises. *)
Inductive Outcome (A : Type) :=
| Return (a : A)
| Raise (e : exn).
Arguments Return {A} a.
Arguments Raise {A} e.

Definition raises {A} (o : Outcome A) : Prop := ∃ e, o = Raise e.
Definition returns {A} (o : Outcome A) : Prop := ∃ a, o = Return a.

(** ** The world outside the process

    Time is counted in microseconds, the resolution of [datetime].
    [clock k] is the UTC wall clock, in microseconds since the epoch, at the
    [k]-th time the process looks at it; [entropy k] is the [k]-th block the
    system random source hands out.  [localtime d] is what the host's time
    zone rules make of the naive date [d] read as local time: its POSIX
    timestamp, or the exception the platform raises for a date it cannot
    convert.  The service signs and validates with one and the same key,
    so the algorithms in question are the HMAC ones: [jwt_refusal alg key]
    is [None] when the installed signing library takes [alg] as an HMAC
    algorithm and [key] as a secret for it, and otherwise the exception that
    [jwt.encode] raises together with the kind of [PyJWTError] that
    [jwt.decode] raises. *)
Record World := mkWorld {
  clock : nat → N;
  reads : nat;
  entropy : nat → string;
  draws : nat;
  localtime : Z → Outcome Z;
  jwt_refusal : string → string → option (exn * JWTErrorKind)
}.

(** Computations that read the world and may raise. *)
Definition M (A : Type) : Type := World → Outcome A * World.

Definition ret {A} (a : A) : M A := λ w, (Return a, w).
Definition throw {A} (e : exn) : M A := λ w, (Raise e, w).
Definition lift {A} (o : Outcome A) : M A := λ w, (o, w).
Definition bind {A B} (k : A → M B) (m : M A) : M B :=
  λ w, match m w with
       | (Return a, w') => k a w'
       | (Raise e, w') => (Raise e, w')
       end.

(** [x ← m; k] is stdpp's notation for [bind]. *)
#[global] Instance M_ret : MRet M := @ret.
#[global] Instance M_bind : MBind M := @bind.

(** The value or exception a computation ends with. *)
Definition result {A} (m : M A) (w : World) : Outcome A := fst (m w).

(** One look at the wall clock. *)
Definition tick : M Z :=
  λ w, (Return (Z.of_N (clock w (reads w))),
        mkWorld (clock w) (S (reads w)) (entropy w) (draws w) (localtime w)
          (jwt_refusal w)).

(** One block of system randomness. *)
Definition urandom : M string :=
  λ w, (Return (entropy w (draws w)),
        mkWorld (clock w) (reads w) (entropy w) (S (draws w)) (localtime w)
          (jwt_refusal w)).

(** ** Python strings

    A [str] is its sequence of UTF-8 bytes; [+] is [String.append]. *)
Module Str.

(** [s[:n]], counted in bytes *)
Fixpoint take (n : nat) (s : string) : string :=
  match n, s with
  | S n', String c s' => String c (take n' s')
  | _, _ => EmptyString
  end.

(** [s[n:]], counted in bytes *)
Fixpoint drop (n : nat) (s : string) : string :=
  match n, s with
  | S n', String _ s' => drop n' s'
  | _, _ => s
  end.

(** [s[len(p):]] when [s.startswith(p)] *)
Fixpoint strip_prefix (p s : string) : option string :=
  match p, s with
  | EmptyString, _ => Some s
  | String a p', String b s' =>
      if Ascii.eqb a b then strip_prefix p' s' else None
  | String _ _, EmptyString => None
  end.

(** A continuation byte of UTF-8: the bit pattern [10xxxxxx]. *)
Definition is_continuation (c : ascii) : bool :=
  match c with Ascii _ _ _ _ _ _ b6 b7 => b7 && negb b6 end.

(** [len(s)]: the number of code points, one for every byte that is no
    continuation byte. *)
Fixpoint len (s : string) : nat :=
  match s with
  | EmptyString => 0
  | String c s' => (if is_continuation c then 0 else 1) + len s'
  end.

(** ["\x00" in s] *)
Fixpoint has_nul (s : string) : bool :=
  match s with
  | EmptyString => false
  | String c s' => Ascii.eqb c "000"%char || has_nul s'
  end.

Definition is_digit (c : ascii) : bool :=
  match Ascii.is_nat c with Some _ => true | None => false end.

(** The value of a decimal digit. *)
Definition digit (c : ascii) : nat := nat_of_ascii c - 48.

(** The alphabet of bcrypt's base64: [./A-Za-z0-9]. *)
Definition is_b64 (c : ascii) : bool :=
  let n := nat_of_ascii c in
  ((46 <=? n) && (n <=? 57)) || ((65 <=? n) && (n <=? 90))
  || ((97 <=? n) && (n <=? 122)).

Fixpoint all_b64 (s : string) : bool :=
  match s with
  | EmptyString => true
  | String c s' => is_b64 c && all_b64 s'
  end.

Fixpoint dots (n : nat) : string :=
  match n with
  | O => EmptyString
  | S n' => String "."%char (dots n')
  end.

(** [s] with ['.'] for every character outside bcrypt's base64. *)
Fixpoint b64 (s : string) : string :=
  match s with
  | EmptyString => EmptyString
  | String c s' => String (if is_b64 c then c else "."%char) (b64 s')
  end.

(** Exactly [n] characters of bcrypt's base64 made of [s]. *)
Definition b64fit (n : nat) (s : string) : string :=
  take n (b64 s +:+ dots n).

End Str.

(** ** passlib: [CryptContext(schemes=["bcrypt"], deprecated="auto")]

    A bcrypt hash is the modular-crypt string
    [ident ‖ rounds ‖ "$" ‖ salt ‖ checksum]: one of the bcrypt identifiers,
    a two-digit cost from 04 to 31, a salt of 22 and a checksum of 31
    characters of bcrypt's base64.  The block function is the parameter
    [bcrypt]; the library hands it the first 72 bytes of the secret. *)
Module Passlib.

Record BcryptHash := mkBcryptHash {
  ident : string;
  rounds : string;
  salt : string;
  checksum : string
}.

(** The identifiers by which the context recognises a bcrypt hash. *)
Definition idents : list string := ["$2b$"; "$2a$"; "$2y$"; "$2x$"; "$2$"].

Definition default_ident : string := "$2b$".
Definition default_rounds : string := "12".

(** [passlib.utils.handlers.MAX_PASSWORD_SIZE] *)
Definition MAX_PASSWORD_SIZE : nat := 4096.

(** The number of bytes of the secret that bcrypt reads. *)
Definition truncate_size : nat := 72.

Definition to_string (h : BcryptHash) : string :=
  ident h +:+ rounds h +:+ "$" +:+ salt h +:+ checksum h.

(** The first identifier that [h] starts with, and what follows it. *)
Fixpoint parse_ident (ids : list string) (h : string)
  : option (string * string) :=
  match ids with
  | [] => None
  | i :: ids' =>
      match Str.strip_prefix i h with
      | Some tail => Some (i, tail)
      | None => parse_ident ids' h
      end
  end.

(** Two digits and a ["$"], and what follows them. *)
Definition parse_rounds (tail : string) : option (string * string) :=
  match tail with
  | String a (String b (String "$" data)) =>
      if Str.is_digit a && Str.is_digit b
      then Some (String a (String b EmptyString), data)
      else None
  | _ => None
  end.

(** The cost that two digits denote. *)
Definition cost (r : string) : nat :=
  match r with
  | String a (String b EmptyString) => 10 * Str.digit a + Str.digit b
  | _ => 0
  end.

(** The context's identification of [h] followed by [bcrypt.from_string]:
    a string no configured scheme identifies raises [UnknownHashError]; an
    identified one raises a [ValueError] when it is of the unsupported
    [$2x$] variant, when its cost is not two digits between 04 and 31, or
    when what follows is not 22 and 31 characters of bcrypt's base64. *)
Definition from_string (h : string) : Outcome BcryptHash :=
  match parse_ident idents h with
  | None => Raise UnknownHashError
  | Some (i, tail) =>
      if String.eqb i "$2x$" then Raise ValueError
      else match parse_rounds tail with
      | None => Raise ValueError
      | Some (r, data) =>
          if (4 <=? cost r)%nat && (cost r <=? 31)%nat
             && (String.length data =? 53)%nat && Str.all_b64 data
          then Return (mkBcryptHash i r (Str.take 22 data)
                         (Str.drop 22 data))
          else Raise ValueError
      end
  end.

(** The secrets the handler takes: no NUL byte, and no more characters than
    [MAX_PASSWORD_SIZE]. *)
Definition secret_ok (secret : string) : bool :=
  negb (Str.has_nul secret) && (Str.len secret <=? MAX_PASSWORD_SIZE)%nat.

(** The salt the library makes of one block of system randomness. *)
Definition salt_of (block : string) : string := Str.b64fit 22 block.

(** [bcrypt.gensalt()] *)
Definition gensalt : M string :=
  block ← urandom;
  mret (default_ident +:+ default_rounds +:+ "$" +:+ salt_of block).

Section CryptContext.

Variable bcrypt : string → string → string → string → string.

(** The checksum of [secret]: 31 characters made of what the block function
    gives for the first 72 bytes of it. *)
Definition checksum_of (i r slt secret : string) : string :=
  Str.b64fit 31 (bcrypt i r slt (Str.take truncate_size secret)).

(** The hash of [secret] under a given salt. *)
Definition hash_with (slt secret : string) : string :=
  to_string (mkBcryptHash default_ident default_rounds slt
               (checksum_of default_ident default_rounds slt secret)).

(** [pwd_context.hash(secret)]: the size of the secret is checked first,
    then a fresh salt is drawn, and the digest refuses a secret with a NUL
    byte. *)
Definition hash (secret : string) : M string :=
  if (MAX_PASSWORD_SIZE <? Str.len secret)%nat then throw ValueError
  else
    block ← urandom;
    if Str.has_nul secret then throw ValueError
    else mret (hash_with (salt_of block) secret).

(** [pwd_context.verify(secret, hash)]: identify and parse the hash,
    recompute the checksum under the salt stored in it and compare. *)
Definition verify (secret h : string) : Outcome bool :=
  match from_string h with
  | Raise e => Raise e
  | Return p =>
      if secret_ok secret then
        Return (bool_decide
                  (checksum p
                   = checksum_of (ident p) (rounds p) (salt p) secret))
      else Raise ValueError
  end.

End CryptContext.

End Passlib.

(** ** PyJWT: [jwt.encode] and [jwt.decode]

    A claim value is a JSON null, number or string; a number is held in
    millionths, so that [JNum 1500000] is the JSON number [1.5].  A claim
    set is a dictionary of claim values.  A token string either does not
    split into a header, a claim set and a signature ([Malformed]), or it
    does ([Jws]); the signing function over the header algorithm, the key
    and the claim set is the parameter [sign]. *)
Inductive json :=
| JNull
| JNum (n : Z)
| JStr (s : string).

#[global] Instance json_eq_dec : EqDecision json.
Proof. solve_decision. Defined.

Inductive Token :=
| Malformed (raw : string)
| Jws (alg : string) (claims : gmap string json) (signature : string).

#[global] Instance Outcome_ret : MRet Outcome := @Return.
#[global] Instance Outcome_bind : MBind Outcome :=
  λ A B k o, match o with Return a => k a | Raise e => Raise e end.

Module Jwt.

(** [int(x)] of a number, again in millionths: the fraction is cut off,
    towards zero. *)
Definition whole (n : Z) : Z := (Z.quot n 1000000 * 1000000)%Z.

(** A present [iat] must be a number whose whole seconds are not after
    [now]. *)
Definition validate_iat (claims : gmap string json) (now : Z) : Outcome unit :=
  match claims !! "iat" with
  | None => Return tt
  | Some (JNum iat) =>
      if (now <? whole iat)%Z then Raise (PyJWTError ImmatureSignatureError)
      else Return tt
  | Some _ => Raise (PyJWTError InvalidIssuedAtError)
  end.

(** A present [nbf] must be a number whose whole seconds are not after
    [now]. *)
Definition validate_nbf (claims : gmap string json) (now : Z) : Outcome unit :=
  match claims !! "nbf" with
  | None => Return tt
  | Some (JNum nbf) =>
      if (now <? whole nbf)%Z then Raise (PyJWTError ImmatureSignatureError)
      else Return tt
  | Some _ => Raise (PyJWTError DecodeError)
  end.

(** A present [exp] must be a number whose whole seconds are after [now]. *)
Definition validate_exp (claims : gmap string json) (now : Z) : Outcome unit :=
  match claims !! "exp" with
  | None => Return tt
  | Some (JNum exp) =>
      if (whole exp <=? now)%Z then Raise (PyJWTError ExpiredSignatureError)
      else Return tt
  | Some _ => Raise (PyJWTError DecodeError)
  end.

(** With an expected audience, [aud] must be present, not empty, and equal
    to it. *)
Definition validate_aud (claims : gmap string json) (audience : string)
  : Outcome unit :=
  match claims !! "aud" with
  | None | Some JNull | Some (JNum 0) | Some (JStr EmptyString) =>
      Raise (PyJWTError MissingRequiredClaimError)
  | Some (JStr aud) =>
      if bool_decide (aud = audience) then Return tt
      else Raise (PyJWTError InvalidAudienceError)
  | Some _ => Raise (PyJWTError InvalidAudienceError)
  end.

Definition validate_claims (claims : gmap string json) (audience : string)
    (now : Z) : Outcome unit :=
  _ ← validate_iat claims now;
  _ ← validate_nbf claims now;
  _ ← validate_exp claims now;
  validate_aud claims audience.



(** What the installed library says to an algorithm and a key. *)
Definition refusal (alg key : string) : M (option (exn * JWTErrorKind)) :=
  λ w, (Return (jwt_refusal w alg key), w).

Section Signing.

Variable sign : string → string → gmap string json → string.

(** The token that carries [payload] under the signature of [key]. *)
Definition signed (payload : gmap string json) (key alg : string) : Token :=
  Jws alg payload (sign alg key payload).

(** [jwt.encode(payload, key, algorithm=alg)] *)
Definition encode (payload : gmap string json) (key alg : string) : M Token :=
  r ← refusal alg key;
  match r with
  | Some (e, _) => throw e
  | None => mret (signed payload key alg)
  end.

(** [jwt.decode(token, key, audience=audience, algorithms=algorithms)]:
    the header algorithm must be allowed, the library must take it and the
    key, the signature must be the one [key] gives, and the registered
    claims must hold at the time of the call. *)
Definition decode (token : Token) (key audience : string)
    (algorithms : list string) : M (gmap string json) :=
  match token with
  | Malformed _ => throw (PyJWTError DecodeError)
  | Jws alg claims signature =>
      if bool_decide (alg ∈ algorithms) then
        r ← refusal alg key;
        match r with
        | Some (_, kind) => throw (PyJWTError kind)
        | None =>
            if bool_decide (signature = sign alg key claims) then
              now ← tick;
              _ ← lift (validate_claims claims audience now);
              mret claims
            else throw (PyJWTError InvalidSignatureError)
        end
      else throw (PyJWTError InvalidAlgorithmError)
  end.

End Signing.

End Jwt.

(** ** The standard library's [datetime]

    A naive [datetime] is its wall-clock reading in microseconds since
    1970-01-01T00:00:00; a [timedelta] is a number of microseconds. *)
Module Datetime.

(** [datetime.min] and [datetime.max] *)
Definition MIN : Z := (-62135596800000000)%Z.
Definition MAX : Z := 253402300799999999%Z.

(** The largest number of days a [timedelta] holds. *)
Definition MAX_DELTA_DAYS : Z := 999999999%Z.

(** [datetime.utcnow()]: the naive reading of the UTC wall clock. *)
Definition utcnow : M Z := tick.

(** [timedelta(minutes=m)]: an [OverflowError] when the days do not fit. *)
Definition timedelta_minutes (m : Z) : Outcome Z :=
  if ((- MAX_DELTA_DAYS * 1440 <=? m)
      && (m <=? MAX_DELTA_DAYS * 1440 + 1439))%Z
  then Return (m * 60000000)%Z
  else Raise OverflowError.

(** [d + td]: an [OverflowError] when the date leaves the years 1 to
    9999. *)
Definition add (d td : Z) : Outcome Z :=
  if ((MIN <=? d + td) && (d + td <=? MAX))%Z then Return (d + td)%Z
  else Raise OverflowError.

(** [d + timedelta(minutes=m)] *)
Definition plus_minutes (d m : Z) : Outcome Z :=
  td ← timedelta_minutes m;
  add d td.

(** [datetime.timestamp(d)]: a naive [d] is read as local time. *)
Definition timestamp (d : Z) : M Z :=
  λ w, (localtime w d, w).

End Datetime.

(** ** The application's models and settings *)
Module models.

(** Modelled from the spec: [app.models] is not part of the sources.  The
    identity reference carries the email (subject and lookup key), the
    stored salt and the stored password hash. *)
Record UserInDB := mkUserInDB {
  email : string;
  salt : string;
  password : string
}.

(** Modelled from the spec: the claim set has the fields
    [{aud: string, iat: numeric-seconds, exp: numeric-seconds, sub: string}];
    [JWTMeta] holds the first three, [JWTCreds] the subject, and [JWTPayload]
    all four, which schema validation requires to be present with these
    types. *)
Record JWTMeta := mkJWTMeta {
  meta_aud : string;
  meta_iat : Z;
  meta_exp : Z
}.

Record JWTCreds := mkJWTCreds {
  creds_sub : string
}.

Record JWTPayload := mkJWTPayload {
  aud : string;
  iat : Z;
  exp : Z;
  sub : string
}.

(** [jwt_meta.dict()] *)
Definition JWTMeta_dict (m : JWTMeta) : gmap string json :=
  <["aud" := JStr (meta_aud m)]>
    (<["iat" := JNum (meta_iat m)]>
       (<["exp" := JNum (meta_exp m)]> ∅)).

(** [jwt_creds.dict()] *)
Definition JWTCreds_dict (c : JWTCreds) : gmap string json :=
  <["sub" := JStr (creds_sub c)]> ∅.

(** [token_payload.dict()] *)
Definition JWTPayload_dict (p : JWTPayload) : gmap string json :=
  <["aud" := JStr (aud p)]>
    (<["iat" := JNum (iat p)]>
       (<["exp" := JNum (exp p)]>
          (<["sub" := JStr (sub p)]> ∅))).

(** [models.JWTPayload] built from the keyword arguments [fields]: schema
    validation of a dictionary. *)
Definition JWTPayload_init (fields : gmap string json) : Outcome JWTPayload :=
  match fields !! "aud", fields !! "iat", fields !! "exp", fields !! "sub" with
  | Some (JStr a), Some (JNum i), Some (JNum e), Some (JStr s) =>
      Return (mkJWTPayload a i e s)
  | _, _, _, _ => Raise ValidationError
  end.

(** [models.UserPasswordUpdate] *)
Record UserPasswordUpdate := mkUserPasswordUpdate {
  upd_salt : string;
  upd_password : string
}.

(** [models.AccessToken] *)
Record AccessToken := mkAccessToken {
  access_token : option Token;
  token_type : string
}.

End models.

(** [app.core.config.settings]: the configuration is an input. *)
Record Settings := mkSettings {
  SECRET_KEY : string;
  JWT_AUDIENCE : string;
  JWT_ALGORITHM : string;
  ACCESS_TOKEN_EXPIRE_MINUTES : Z
}.

(** What a caller may pass where a [models.UserInDB] is expected: [None], a
    user record, or some other object, truthy or not. *)
Inductive PyObject :=
| PyNone
| PyUser (u : models.UserInDB)
| PyOther (truthy : bool).

(** [bool(o)] *)
Definition truth (o : PyObject) : bool :=
  match o with
  | PyNone => false
  | PyUser _ => true
  | PyOther t => t
  end.

(** [isinstance(o, models.UserInDB)], with the record when it holds. *)
Definition as_UserInDB (o : PyObject) : option models.UserInDB :=
  match o with
  | PyUser u => Some u
  | _ => None
  end.

Definition of_optional (o : option models.UserInDB) : PyObject :=
  match o with
  | Some u => PyUser u
  | None => PyNone
  end.

(** Modelled from the spec: [app.crud] is not part of the sources.  The
    storage collaborator answers [get_identity_by_email(email)] with the
    identity reference or with nothing. *)
Definition get_by_email (db : gmap string models.UserInDB) (email : string)
  : M (option models.UserInDB) :=
  mret (db !! email).

(** [try: body except (jwt.PyJWTError, ValidationError): handler] *)
Definition handled (e : exn) : bool :=
  match e with
  | PyJWTError _ | ValidationError => true
  | _ => false
  end.

Definition try_except {A} (body handler : M A) : M A :=
  λ w, match body w with
       | (Raise e, w') => if handled e then handler w' else (Raise e, w')
       | r => r
       end.

(** ** The service: [class AuthenticationService] *)

(** [fastapi.status.HTTP_401_UNAUTHORIZED] *)
Definition HTTP_401_UNAUTHORIZED : Z := 401.

Section AuthenticationService.

Variable bcrypt : string → string → string → string → string.
Variable sign : string → string → gmap string json → string.
Variable settings : Settings.

(** Generate a random salt to be used when hashing the password. *)
Definition generate_salt : M string := Passlib.gensalt.

(** Hash given password with salt. *)
Definition hash_password (password salt : string) : M string :=
  Passlib.hash bcrypt (password +:+ salt).

Definition create_salt_and_hashed_password (plaintext_password : string)
  : M models.UserPasswordUpdate :=
  salt ← generate_salt;
  hashed_password ← hash_password plaintext_password salt;
  mret (models.mkUserPasswordUpdate salt hashed_password).

(** Verify the saved password hash against the given password and salt. *)
Definition verify_password (password salt hashed_password : string)
  : Outcome bool :=
  Passlib.verify bcrypt (password +:+ salt) hashed_password.

(** Creates JWT for a user.  The defaults of [secret_key], [audience] and
    [expires_in] are the settings; callers that rely on them pass the
    settings. *)
Definition create_access_token_for_user (user : PyObject)
    (secret_key audience : string) (expires_in : Z) : M (option Token) :=
  if negb (truth user) then mret None
  else match as_UserInDB user with
  | None => mret None
  | Some u =>
      now1 ← Datetime.utcnow;
      iat ← Datetime.timestamp now1;
      now2 ← Datetime.utcnow;
      expiry ← lift (Datetime.plus_minutes now2 expires_in);
      exp ← Datetime.timestamp expiry;
      let jwt_meta := models.mkJWTMeta audience iat exp in
      let jwt_creds := models.mkJWTCreds (models.email u) in
      token_payload ←
        lift (models.JWTPayload_init
                (models.JWTMeta_dict jwt_meta
                 ∪ models.JWTCreds_dict jwt_creds));
      access_token ← Jwt.encode sign (models.JWTPayload_dict token_payload)
                       secret_key (JWT_ALGORITHM settings);
      mret (Some access_token)
  end.

(** Authentication method to auth user and return a JWT token. *)
Definition authenticate_user (db : gmap string models.UserInDB)
    (email password : string) : M models.AccessToken :=
  user ← get_by_email db email;
  rejected ←
    match user with
    | None => mret true
    | Some u =>
        ok ← lift (verify_password password (models.salt u)
                     (models.password u));
        mret (negb ok)
    end;
  if (rejected : bool) then
    throw (HTTPException HTTP_401_UNAUTHORIZED
             "Authentication was unsuccessful."
             [("WWW-Authenticate", "Bearer")])
  else
    token ← create_access_token_for_user (of_optional user)
              (SECRET_KEY settings) (JWT_AUDIENCE settings)
              (ACCESS_TOKEN_EXPIRE_MINUTES settings);
    mret (models.mkAccessToken token "bearer").

(** Decode a provided JWT token and get the email address. *)
Definition get_email_from_token (token : Token) (secret_key : string)
  : M string :=
  payload ←
    try_except
      (decoded_token ← Jwt.decode sign token (SECRET_KEY settings)
                         (JWT_AUDIENCE settings) [JWT_ALGORITHM settings];
       lift (models.JWTPayload_init decoded_token))
      (throw (HTTPException HTTP_401_UNAUTHORIZED
                "Could not validate token credentials."
                [("WWW-Authenticate", "Bearer")]));
  mret (models.sub payload).

End AuthenticationService.

(** ** A sample instance

    Concrete primitives, settings, storage and worlds on which the
    definitions above evaluate. *)
Module Sample.

(** A block function that writes the secret and the salt side by side. *)
Definition bcrypt (ident rounds slt secret : string) : string :=
  secret +:+ "/" +:+ slt.

(** A signing function over the algorithm, the key and the subject. *)
Definition sign (alg key : string) (claims : gmap string json) : string :=
  alg +:+ ":" +:+ key +:+ ":" +:+
  match claims !! "sub" with
  | Some (JStr s) => s
  | _ => EmptyString
  end.

Definition settings : Settings :=
  mkSettings "s3cr3t" "app:auth" "HS256" 30.

(** A signing library that knows the three HMAC algorithms and takes every
    key for them. *)
Definition hmac_only (alg key : string) : option (exn * JWTErrorKind) :=
  if bool_decide (alg ∈ ["HS256"; "HS384"; "HS512"]) then None
  else Some (NotImplementedError, InvalidAlgorithmError).

(** A host whose clock shows [ticks k] microseconds at the [k]-th reading
    and whose local time is always [off] microseconds east of UTC. *)
Definition host (ticks : nat → N) (off : Z) : World :=
  mkWorld ticks 0 (λ k, Str.dots k +:+ "block") 0
    (λ d, Return (d - off)%Z) hmac_only.

(** A host [off] seconds east of UTC whose clock shows [t0] seconds, and
    one second more at every further reading. *)
Definition world (t0 : N) (off : Z) : World :=
  host (λ k, (t0 + N.of_nat k) * 1000000)%N (off * 1000000)%Z.

Definition alice : models.UserInDB :=
  models.mkUserInDB "a@example.com" "$2b$12$saltsaltsaltsaltsaltsa"
    (Passlib.hash_with bcrypt (Passlib.salt_of "pepper")
       ("wonderland" +:+ "$2b$12$saltsaltsaltsaltsaltsa")).

Definition db : gmap string models.UserInDB :=
  <["a@example.com" := alice]> ∅.

End Sample.

(** * Properties *)

#[local] Set Warnings "-clear-no-such-hyp".

Local Abbreviation could_not_validate :=
  (HTTPException HTTP_401_UNAUTHORIZED "Could not validate token credentials."
     [("WWW-Authenticate", "Bearer")]).

Local Abbreviation unsuccessful :=
  (HTTPException HTTP_401_UNAUTHORIZED "Authentication was unsuccessful."
     [("WWW-Authenticate", "Bearer")]).

(** ** Strings *)

Lemma take_app_length (a b : string) :
  Str.take (String.length a) (a +:+ b) = a.
Proof. induction a as [|c a IH]; simpl; [by destruct b | by rewrite IH]. Qed.

Lemma drop_app_length (a b : string) :
  Str.drop (String.length a) (a +:+ b) = b.
Proof. induction a as [|c a IH]; simpl; done. Qed.

Lemma length_dots (n : nat) : String.length (Str.dots n) = n.
Proof. induction n; simpl; congruence. Qed.

Lemma length_take (n : nat) (s : string) :
  n ≤ String.length s → String.length (Str.take n s) = n.
Proof.
  revert s; induction n as [|n IH]; intros [|c s]; simpl; try lia.
  intros H. rewrite IH; lia.
Qed.

Lemma length_app (a b : string) :
  String.length (a +:+ b) = String.length a + String.length b.
Proof. induction a as [|c a IH]; simpl; [done | by rewrite IH]. Qed.

Lemma length_b64 (s : string) : String.length (Str.b64 s) = String.length s.
Proof. induction s as [|c s IH]; simpl; congruence. Qed.

Lemma length_b64fit (n : nat) (s : string) :
  String.length (Str.b64fit n s) = n.
Proof.
  unfold Str.b64fit. apply length_take. rewrite length_app, length_dots. lia.
Qed.

Lemma all_b64_app (a b : string) :
  Str.all_b64 (a +:+ b) = Str.all_b64 a && Str.all_b64 b.
Proof.
  induction a as [|c a IH]; simpl; [done |]. by rewrite IH, andb_assoc.
Qed.

Lemma all_b64_dots (n : nat) : Str.all_b64 (Str.dots n) = true.
Proof. induction n; simpl; done. Qed.

Lemma all_b64_b64 (s : string) : Str.all_b64 (Str.b64 s) = true.
Proof.
  induction s as [|c s IH]; simpl; [done |]. rewrite IH, andb_true_r.
  by destruct (Str.is_b64 c) eqn:E.
Qed.

Lemma all_b64_take (n : nat) (s : string) :
  Str.all_b64 s = true → Str.all_b64 (Str.take n s) = true.
Proof.
  revert s; induction n as [|n IH]; intros [|c s]; simpl; try done.
  intros [Hc Hs]%andb_true_iff. by rewrite Hc, IH.
Qed.

Lemma all_b64_b64fit (n : nat) (s : string) :
  Str.all_b64 (Str.b64fit n s) = true.
Proof.
  apply all_b64_take. by rewrite all_b64_app, all_b64_b64, all_b64_dots.
Qed.

(** A character of bcrypt's base64 is an ASCII character other than NUL. *)
Lemma is_b64_ascii (c : ascii) :
  Str.is_b64 c = true →
  Ascii.eqb c "000"%char = false ∧ Str.is_continuation c = false.
Proof. by destruct c as [[] [] [] [] [] [] [] []]. Qed.

Lemma all_b64_plain (s : string) :
  Str.all_b64 s = true →
  Str.has_nul s = false ∧ Str.len s = String.length s.
Proof.
  induction s as [|c s IH]; simpl; [done |].
  intros [Hc Hs]%andb_true_iff.
  destruct (is_b64_ascii c Hc) as [-> ->], (IH Hs) as [-> ->]. done.
Qed.

Lemma has_nul_app (a b : string) :
  Str.has_nul (a +:+ b) = Str.has_nul a || Str.has_nul b.
Proof.
  induction a as [|c a IH]; simpl; [done |]. by rewrite IH, orb_assoc.
Qed.

Lemma len_app (a b : string) : Str.len (a +:+ b) = Str.len a + Str.len b.
Proof. induction a as [|c a IH]; simpl; [done |]. rewrite IH. lia. Qed.

(** ** passlib *)

Lemma from_string_default (data : string) :
  Passlib.from_string
    (Passlib.default_ident +:+ Passlib.default_rounds +:+ "$" +:+ data)
  = if (String.length data =? 53)%nat && Str.all_b64 data
    then Return (Passlib.mkBcryptHash Passlib.default_ident
                   Passlib.default_rounds (Str.take 22 data)
                   (Str.drop 22 data))
    else Raise ValueError.
Proof. reflexivity. Qed.

Lemma length_salt_of (block : string) :
  String.length (Passlib.salt_of block) = 22.
Proof. apply length_b64fit. Qed.

Lemma all_b64_salt_of (block : string) :
  Str.all_b64 (Passlib.salt_of block) = true.
Proof. apply all_b64_b64fit. Qed.

Lemma secret_ok_iff (secret : string) :
  Passlib.secret_ok secret = true ↔
    Str.has_nul secret = false ∧ Str.len secret ≤ Passlib.MAX_PASSWORD_SIZE.
Proof.
  unfold Passlib.secret_ok.
  rewrite andb_true_iff, negb_true_iff, Nat.leb_le. done.
Qed.

Section PasslibFacts.

Variable bcrypt : string → string → string → string → string.

(** Parsing undoes printing. *)
Lemma from_string_hash_with (slt secret : string) :
  String.length slt = 22 → Str.all_b64 slt = true →
  Passlib.from_string (Passlib.hash_with bcrypt slt secret)
  = Return (Passlib.mkBcryptHash Passlib.default_ident Passlib.default_rounds
              slt (Passlib.checksum_of bcrypt Passlib.default_ident
                     Passlib.default_rounds slt secret)).
Proof.
  intros Hlen Hb64. unfold Passlib.hash_with, Passlib.to_string.
  cbn [Passlib.ident Passlib.rounds Passlib.salt Passlib.checksum].
  rewrite from_string_default, length_app, Hlen.
  unfold Passlib.checksum_of at 1 2.
  rewrite length_b64fit, all_b64_app, Hb64, all_b64_b64fit.
  change ((22 + 31 =? 53)%nat && (true && true)) with true. cbv iota.
  rewrite <- Hlen. by rewrite take_app_length, drop_app_length.
Qed.

Lemma verify_hash_with (slt secret candidate : string) :
  String.length slt = 22 → Str.all_b64 slt = true →
  Passlib.secret_ok candidate = true →
  Passlib.verify bcrypt candidate (Passlib.hash_with bcrypt slt secret)
  = Return (bool_decide
              (Passlib.checksum_of bcrypt Passlib.default_ident
                 Passlib.default_rounds slt secret
               = Passlib.checksum_of bcrypt Passlib.default_ident
                   Passlib.default_rounds slt candidate)).
Proof.
  intros Hlen Hb64 Hok. unfold Passlib.verify.
  rewrite from_string_hash_with by done.
  cbn [Passlib.ident Passlib.rounds Passlib.salt Passlib.checksum].
  by rewrite Hok.
Qed.

Lemma verify_hash_with_nul (slt secret candidate : string) :
  String.length slt = 22 → Str.all_b64 slt = true →
  Passlib.secret_ok candidate = false →
  Passlib.verify bcrypt candidate (Passlib.hash_with bcrypt slt secret)
  = Raise ValueError.
Proof.
  intros Hlen Hb64 Hok. unfold Passlib.verify.
  rewrite from_string_hash_with by done. by rewrite Hok.
Qed.

Lemma hash_with_inj_salt (s1 s2 x : string) :
  String.length s1 = 22 → Str.all_b64 s1 = true →
  String.length s2 = 22 → Str.all_b64 s2 = true →
  Passlib.hash_with bcrypt s1 x = Passlib.hash_with bcrypt s2 x → s1 = s2.
Proof.
  intros H1 H1' H2 H2' Heq.
  apply (f_equal Passlib.from_string) in Heq.
  rewrite !from_string_hash_with in Heq by done. by injection Heq.
Qed.

Lemma result_hash_password (P s : string) (w : World) :
  Passlib.secret_ok (P +:+ s) = true →
  result (hash_password bcrypt P s) w
  = Return (Passlib.hash_with bcrypt
              (Passlib.salt_of (entropy w (draws w))) (P +:+ s)).
Proof.
  intros [Hnul Hlen]%secret_ok_iff. unfold hash_password, Passlib.hash.
  destruct (Nat.ltb_spec Passlib.MAX_PASSWORD_SIZE (Str.len (P +:+ s)));
    [lia |].
  unfold result, mbind, M_bind, bind, urandom. cbn. by rewrite Hnul.
Qed.

Lemma result_hash_password_nul (P s : string) (w : World) :
  Str.has_nul (P +:+ s) = true →
  result (hash_password bcrypt P s) w = Raise ValueError.
Proof.
  intros Hnul. unfold hash_password, Passlib.hash.
  destruct (_ <? _)%nat; [done |].
  unfold result, mbind, M_bind, bind, urandom. cbn. by rewrite Hnul.
Qed.

(** A hash that [hash_password] made verifies against a candidate by the
    comparison of the two checksums. *)
Lemma verify_password_hash_with (P s slt secret : string) :
  String.length slt = 22 → Str.all_b64 slt = true →
  Passlib.secret_ok (P +:+ s) = true →
  verify_password bcrypt P s (Passlib.hash_with bcrypt slt secret)
  = Return (bool_decide
              (Passlib.checksum_of bcrypt Passlib.default_ident
                 Passlib.default_rounds slt secret
               = Passlib.checksum_of bcrypt Passlib.default_ident
                   Passlib.default_rounds slt (P +:+ s))).
Proof. intros. unfold verify_password. by apply verify_hash_with. Qed.

End PasslibFacts.

(** ** The credential hasher *)

(** C2 as stated fails: the library refuses a password with a NUL byte, so
    that [hash_password] raises and leaves no hash to verify. *)
Lemma hash_password_raises_on_nul :
  result (hash_password Sample.bcrypt ("won" +:+ String "000"%char "derland")
            "NaCl") (Sample.world 1000 0)
  = Raise ValueError.
Proof. reflexivity. Qed.

(** C2, amended: for every password and salt that together hold no NUL byte
    and no more than 4096 characters, [verify_password] accepts the hash
    that [hash_password] made of them, whatever salt the library drew for
    it; two calls for which the library drew different salts give different
    hashes, and both are accepted. *)
Theorem verify_password_accepts_own_hash
    (bcrypt : string → string → string → string → string)
    (P s : string) (w : World) :
  Passlib.secret_ok (P +:+ s) = true →
  ∃ h, result (hash_password bcrypt P s) w = Return h
       ∧ verify_password bcrypt P s h = Return true
       ∧ ∀ w' h',
           result (hash_password bcrypt P s) w' = Return h' →
           Passlib.salt_of (entropy w' (draws w'))
             ≠ Passlib.salt_of (entropy w (draws w)) →
           h' ≠ h ∧ verify_password bcrypt P s h' = Return true.
Proof.
  intros Hok. eexists. split; [by apply result_hash_password |].
  assert (Hown : ∀ blk, verify_password bcrypt P s
            (Passlib.hash_with bcrypt (Passlib.salt_of blk) (P +:+ s))
          = Return true).
  { intros blk.
    rewrite verify_password_hash_with
      by auto using length_salt_of, all_b64_salt_of.
    by rewrite bool_decide_eq_true_2. }
  split; [apply Hown |].
  intros w' h' Hh' Hsalt. rewrite result_hash_password in Hh' by done.
  injection Hh' as <-. split; [| apply Hown].
  intros Heq. apply Hsalt.
  eapply hash_with_inj_salt; eauto using length_salt_of, all_b64_salt_of.
Qed.

Lemma verify_password_accepts_own_hash_witness :
  ∃ h, result (hash_password Sample.bcrypt "wonderland" "NaCl")
         (Sample.world 1000 0) = Return h
       ∧ verify_password Sample.bcrypt "wonderland" "NaCl" h = Return true
       ∧ ∀ w' h',
           result (hash_password Sample.bcrypt "wonderland" "NaCl") w'
             = Return h' →
           Passlib.salt_of (entropy w' (draws w'))
             ≠ Passlib.salt_of (entropy (Sample.world 1000 0)
                                  (draws (Sample.world 1000 0))) →
           h' ≠ h
           ∧ verify_password Sample.bcrypt "wonderland" "NaCl" h'
             = Return true.
Proof.
  apply (verify_password_accepts_own_hash Sample.bcrypt "wonderland" "NaCl"
           (Sample.world 1000 0)).
  reflexivity.
Defined.

(** Two calls in a row on the same password and salt: different bytes. *)
Example hash_password_twice :
  result (h1 ← hash_password Sample.bcrypt "wonderland" "NaCl";
          h2 ← hash_password Sample.bcrypt "wonderland" "NaCl";
          mret (bool_decide (h1 = h2)))
    (Sample.world 1000 0)
  = Return false.
Proof. reflexivity. Qed.




(** On the sample, the other password is refused. *)
Example verify_password_other_password_false :
  result (h ← hash_password Sample.bcrypt "wonderland" "NaCl";
          lift (verify_password Sample.bcrypt "w0nderland" "NaCl" h))
    (Sample.world 1000 0)
  = Return false.
Proof. reflexivity. Qed.

(** C10 as stated fails: when the common concatenation holds a NUL byte,
    [hash_password] raises, and so does [verify_password] on a hash made
    of anything else. *)
Lemma verify_password_other_split_raises_on_nul :
  let P := "won" +:+ String "000"%char "der" in
  let P' := "won" in
  let s' := String "000"%char "derland" in
  P' +:+ s' = P +:+ "land"
  ∧ P' ≠ P
  ∧ result (hash_password Sample.bcrypt P "land") (Sample.world 1000 0)
    = Raise ValueError
  ∧ verify_password Sample.bcrypt P' s' (models.password Sample.alice)
    = Raise ValueError.
Proof. cbv zeta. repeat split; try reflexivity. discriminate. Qed.

(** C10, amended: the hash binds the concatenation of password and salt
    only: when it holds no NUL byte and no more than 4096 characters, a
    password and a salt that concatenate to the same text as the hashed pair
    are accepted, also when the password differs. *)
Theorem verify_password_accepts_other_split
    (bcrypt : string → string → string → string → string)
    (P s P' s' : string) (w : World) :
  Passlib.secret_ok (P +:+ s) = true →
  P' +:+ s' = P +:+ s →
  ∃ h, result (hash_password bcrypt P s) w = Return h
       ∧ verify_password bcrypt P' s' h = Return true.
Proof.
  intros Hok Hcat. eexists. split; [by apply result_hash_password |].
  rewrite verify_password_hash_with
    by (rewrite ?Hcat; auto using length_salt_of, all_b64_salt_of).
  rewrite Hcat. by rewrite bool_decide_eq_true_2.
Qed.

Lemma verify_password_accepts_other_split_witness :
  "wonder" ≠ "wonderland"
  ∧ ∃ h, result (hash_password Sample.bcrypt "wonderland" "NaCl")
           (Sample.world 1000 0) = Return h
         ∧ verify_password Sample.bcrypt "wonder" "landNaCl" h = Return true.
Proof.
  split; [discriminate |].
  apply verify_password_accepts_other_split; reflexivity.
Defined.




(** What the library refuses to parse: the [$2x$] variant, a cost below 04,
    a checksum that is too short. *)
Example from_string_refuses :
  Passlib.from_string
    "$2x$12$saltsaltsaltsaltsaltsachecksumchecksumchecksumchecksu"
  = Raise ValueError
  ∧ Passlib.from_string
      "$2b$03$saltsaltsaltsaltsaltsachecksumchecksumchecksumchecksu"
    = Raise ValueError
  ∧ Passlib.from_string "$2b$12$saltsaltsaltsaltsaltsachecksum"
    = Raise ValueError
  ∧ returns (Passlib.from_string
       "$2b$12$saltsaltsaltsaltsaltsachecksumchecksumchecksumchecksu").
Proof. repeat split; try reflexivity. by eexists. Qed.

(** ** pydantic and PyJWT *)

Lemma JWTPayload_init_dict (p : models.JWTPayload) :
  models.JWTPayload_init (models.JWTPayload_dict p) = Return p.
Proof. destruct p. reflexivity. Qed.

Lemma JWTPayload_init_handled fields e :
  models.JWTPayload_init fields = Raise e → e = ValidationError.
Proof.
  unfold models.JWTPayload_init.
  destruct (fields !! "aud") as [[]|]; destruct (fields !! "iat") as [[]|];
    destruct (fields !! "exp") as [[]|]; destruct (fields !! "sub") as [[]|];
    congruence.
Qed.

Lemma JWTPayload_init_Return fields p :
  models.JWTPayload_init fields = Return p ↔
    fields !! "aud" = Some (JStr (models.aud p))
    ∧ fields !! "iat" = Some (JNum (models.iat p))
    ∧ fields !! "exp" = Some (JNum (models.exp p))
    ∧ fields !! "sub" = Some (JStr (models.sub p)).
Proof.
  unfold models.JWTPayload_init. destruct p as [a i e s]; cbn.
  destruct (fields !! "aud") as [[]|]; destruct (fields !! "iat") as [[]|];
    destruct (fields !! "exp") as [[]|]; destruct (fields !! "sub") as [[]|];
    split; try done; try (intros (? & ? & ? & ?); congruence).
  intros [= -> -> -> ->]; done.
Qed.

(** Cutting the fraction off moves a number towards zero. *)
Lemma whole_le (n : Z) : (0 ≤ n → Jwt.whole n ≤ n)%Z.
Proof.
  intros Hn. unfold Jwt.whole.
  pose proof (Z.quot_rem' n 1000000).
  pose proof (Z.rem_nonneg n 1000000 ltac:(lia) Hn). lia.
Qed.

Lemma whole_le_now (e now : Z) : (0 ≤ now → e ≤ now → Jwt.whole e ≤ now)%Z.
Proof.
  intros Hnow He. destruct (Z.le_gt_cases 0 e) as [H|H].
  - pose proof (whole_le e H). lia.
  - unfold Jwt.whole.
    pose proof (Z.quot_le_mono e 0 1000000 ltac:(lia) ltac:(lia)) as Hq.
    rewrite Z.quot_0_l in Hq by lia. lia.
Qed.


Lemma whole_seconds (s : Z) : Jwt.whole (s * 1000000) = (s * 1000000)%Z.
Proof. unfold Jwt.whole. by rewrite Z.quot_mul by lia. Qed.

Ltac unfold_validate_claims :=
  unfold Jwt.validate_claims, Jwt.validate_iat, Jwt.validate_nbf,
    Jwt.validate_exp, Jwt.validate_aud, mbind, Outcome_bind.

Ltac split_claims claims :=
  destruct (claims !! "iat") as [[]|]; destruct (claims !! "nbf") as [[]|];
  destruct (claims !! "exp") as [[]|];
  destruct (claims !! "aud") as [[|[]|[]]|];
  repeat match goal with
         | |- context [(?a <? ?b)%Z] => destruct (Z.ltb_spec a b)
         | |- context [(?a <=? ?b)%Z] => destruct (Z.leb_spec a b)
         | |- context [bool_decide ?P] => destruct (bool_decide_reflect P)
         end.

(** The library raises its own exceptions only. *)
Lemma validate_claims_handled claims audience now e :
  Jwt.validate_claims claims audience now = Raise e → handled e = true.
Proof.
  unfold_validate_claims. split_claims claims; by intros [= <-].
Qed.

Lemma validate_claims_Return claims audience now :
  Jwt.validate_claims claims audience now = Return tt ↔
    (∀ v, claims !! "iat" = Some v →
          ∃ n, v = JNum n ∧ (Jwt.whole n ≤ now)%Z)
    ∧ (∀ v, claims !! "nbf" = Some v →
            ∃ n, v = JNum n ∧ (Jwt.whole n ≤ now)%Z)
    ∧ (∀ v, claims !! "exp" = Some v →
            ∃ n, v = JNum n ∧ (now < Jwt.whole n)%Z)
    ∧ claims !! "aud" = Some (JStr audience)
    ∧ audience ≠ EmptyString.
Proof.
  unfold_validate_claims. split_claims claims; subst;
    (split;
     [ try done; intros _; repeat split; try done;
       intros ? [= <-]; eauto with lia
     | intros (Hi & Hn & He & Ha & Hne); try done;
       try (destruct (Hi _ eq_refl) as (? & [=] & ?));
       try (destruct (Hn _ eq_refl) as (? & [=] & ?));
       try (destruct (He _ eq_refl) as (? & [=] & ?)); subst;
       try congruence; try lia ]).
Qed.

Lemma raises_iff_not_returns {A} (o : Outcome A) :
  raises o ↔ ∀ a, o ≠ Return a.
Proof.
  destruct o; split; try done.
  - intros [? [=]].
  - intros H. by destruct (H a).
  - intros _. by eexists.
Qed.

Lemma plus_minutes_Return (d m expiry : Z) :
  Datetime.plus_minutes d m = Return expiry →
  expiry = (d + m * 60000000)%Z.
Proof.
  unfold Datetime.plus_minutes, Datetime.timedelta_minutes, Datetime.add.
  unfold mbind, Outcome_bind.
  repeat case_match; congruence.
Qed.

(** ** The token issuer and validator *)

Section TokenFacts.

Variable sign : string → string → gmap string json → string.
Variable settings : Settings.

(** The issuer, step by step. *)
Lemma result_create_access_token_for_user_cases (u : models.UserInDB)
    (secret_key audience : string) (expires_in : Z) (w : World) :
  result (create_access_token_for_user sign settings (PyUser u) secret_key
            audience expires_in) w
  = match localtime w (Z.of_N (clock w (reads w))) with
    | Raise e => Raise e
    | Return iat =>
        match Datetime.plus_minutes (Z.of_N (clock w (S (reads w))))
                expires_in with
        | Raise e => Raise e
        | Return expiry =>
            match localtime w expiry with
            | Raise e => Raise e
            | Return exp =>
                match jwt_refusal w (JWT_ALGORITHM settings) secret_key with
                | Some (e, _) => Raise e
                | None =>
                    Return (Some (Jwt.signed sign
                      (models.JWTPayload_dict
                         (models.mkJWTPayload audience iat exp
                            (models.email u)))
                      secret_key (JWT_ALGORITHM settings)))
                end
            end
        end
    end.
Proof.
  unfold create_access_token_for_user, result. cbn [truth negb as_UserInDB].
  unfold mbind, M_bind, bind, Datetime.utcnow, tick, Datetime.timestamp, lift.
  cbn [localtime clock reads].
  destruct (localtime w _) as [iat|e]; [| done].
  destruct (Datetime.plus_minutes _ _) as [expiry|e]; [| done].
  destruct (localtime w expiry) as [exp|e]; [| done].
  cbn. unfold Jwt.encode, Jwt.refusal, mbind, M_bind, bind. cbn.
  by destruct (jwt_refusal w _ _) as [[e k]|].
Qed.

Lemma result_create_access_token_for_user (u : models.UserInDB)
    (secret_key audience : string) (expires_in : Z) (w : World)
    (iat expiry exp : Z) :
  localtime w (Z.of_N (clock w (reads w))) = Return iat →
  Datetime.plus_minutes (Z.of_N (clock w (S (reads w)))) expires_in
    = Return expiry →
  localtime w expiry = Return exp →
  jwt_refusal w (JWT_ALGORITHM settings) secret_key = None →
  result (create_access_token_for_user sign settings (PyUser u) secret_key
            audience expires_in) w
  = Return (Some (Jwt.signed sign
       (models.JWTPayload_dict
          (models.mkJWTPayload audience iat exp (models.email u)))
       secret_key (JWT_ALGORITHM settings))).
Proof.
  intros H1 H2 H3 H4.
  by rewrite result_create_access_token_for_user_cases, H1, H2, H3, H4.
Qed.


Lemma get_email_from_token_Malformed raw sk w :
  result (get_email_from_token sign settings (Malformed raw) sk) w
  = Raise could_not_validate.
Proof. reflexivity. Qed.

(** The validator, one check after the other. *)
Lemma get_email_from_token_Jws alg claims sig sk w :
  result (get_email_from_token sign settings (Jws alg claims sig) sk) w
  = if bool_decide (alg ∈ [JWT_ALGORITHM settings]) then
      match jwt_refusal w alg (SECRET_KEY settings) with
      | Some _ => Raise could_not_validate
      | None =>
          if bool_decide (sig = sign alg (SECRET_KEY settings) claims) then
            match Jwt.validate_claims claims (JWT_AUDIENCE settings)
                    (Z.of_N (clock w (reads w))) with
            | Raise e =>
                if handled e then Raise could_not_validate else Raise e
            | Return _ =>
                match models.JWTPayload_init claims with
                | Return p => Return (models.sub p)
                | Raise e =>
                    if handled e then Raise could_not_validate else Raise e
                end
            end
          else Raise could_not_validate
      end
    else Raise could_not_validate.
Proof.
  unfold get_email_from_token, result, try_except, Jwt.decode.
  unfold mbind, M_bind, bind, lift, throw, mret, M_ret, ret, tick,
    Jwt.refusal.
  case_bool_decide; [| reflexivity].
  destruct (jwt_refusal w alg _) as [[e k]|]; [reflexivity |].
  case_bool_decide; [| reflexivity].
  cbn. destruct (Jwt.validate_claims _ _ _) as [[]|e]; cbn.
  - destruct (models.JWTPayload_init claims) as [p|e]; cbn; [done |].
    by destruct (handled e).
  - by destruct (handled e).
Qed.

Lemma get_email_from_token_raises_uniform token sk w e :
  result (get_email_from_token sign settings token sk) w = Raise e →
  e = could_not_validate.
Proof.
  destruct token as [raw|alg claims sig].
  - rewrite get_email_from_token_Malformed. congruence.
  - rewrite get_email_from_token_Jws.
    case_bool_decide; [| congruence].
    destruct (jwt_refusal w alg _); [congruence |].
    case_bool_decide; [| congruence].
    destruct (Jwt.validate_claims _ _ _) as [[]|e'] eqn:Hv.
    + destruct (models.JWTPayload_init claims) as [p|e'] eqn:Hp; [done |].
      apply JWTPayload_init_handled in Hp as ->. cbn. congruence.
    + apply validate_claims_handled in Hv as ->. congruence.
Qed.

Lemma get_email_from_token_raises_could_not_validate token sk w :
  raises (result (get_email_from_token sign settings token sk) w) →
  result (get_email_from_token sign settings token sk) w
  = Raise could_not_validate.
Proof.
  intros [e He]. rewrite He. f_equal.
  by eapply get_email_from_token_raises_uniform.
Qed.

Lemma get_email_from_token_returns_iff alg claims sig sk w s :
  result (get_email_from_token sign settings (Jws alg claims sig) sk) w
    = Return s ↔
  alg = JWT_ALGORITHM settings
  ∧ jwt_refusal w alg (SECRET_KEY settings) = None
  ∧ sig = sign alg (SECRET_KEY settings) claims
  ∧ Jwt.validate_claims claims (JWT_AUDIENCE settings)
      (Z.of_N (clock w (reads w))) = Return tt
  ∧ ∃ p, models.JWTPayload_init claims = Return p ∧ models.sub p = s.
Proof.
  rewrite get_email_from_token_Jws.
  case_bool_decide as Halg;
    [| split; [done | intros (? & _); set_solver]].
  destruct (jwt_refusal w alg _) as [r|];
    [split; [done | intros (_ & ? & _); done] |].
  case_bool_decide as Hsig;
    [| split; [done | intros (_ & _ & ? & _); done]].
  destruct (Jwt.validate_claims _ _ _) as [[]|e'] eqn:Hv.
  - destruct (models.JWTPayload_init claims) as [p|e'] eqn:Hp.
    + split.
      * intros [= <-]. repeat split; [set_solver | done | eauto].
      * intros (_ & _ & _ & _ & p' & [= <-] & <-). done.
    + apply JWTPayload_init_handled in Hp as ->. cbn.
      split; [done | intros (_ & _ & _ & _ & ? & ? & _); done].
  - rewrite (validate_claims_handled _ _ _ _ Hv).
    split; [done | intros (_ & _ & _ & ? & _); done].
Qed.

(** A token of the issuer validates between the whole seconds of its two
    times. *)
Lemma get_email_from_token_signed audience iat exp address sk w :
  audience = JWT_AUDIENCE settings →
  audience ≠ EmptyString →
  jwt_refusal w (JWT_ALGORITHM settings) (SECRET_KEY settings) = None →
  (Jwt.whole iat ≤ Z.of_N (clock w (reads w)) < Jwt.whole exp)%Z →
  result (get_email_from_token sign settings
            (Jwt.signed sign
               (models.JWTPayload_dict
                  (models.mkJWTPayload audience iat exp address))
               (SECRET_KEY settings) (JWT_ALGORITHM settings)) sk) w
  = Return address.
Proof.
  intros -> Hne Href [Hiat Hexp]. apply get_email_from_token_returns_iff.
  split; [done |]. split; [done |]. split; [done |]. split.
  - apply validate_claims_Return. repeat split; try done.
    + intros v [= <-]. eauto.
    + intros v [= <-]. eauto.
  - eexists. split; [apply JWTPayload_init_dict | done].
Qed.

(** A token of the issuer does not validate from the whole second of its
    expiry on, nor before the whole second of its issue. *)
Lemma get_email_from_token_signed_raises audience iat exp address key sk w :
  (Jwt.whole exp ≤ Z.of_N (clock w (reads w))
   ∨ Z.of_N (clock w (reads w)) < Jwt.whole iat
   ∨ audience ≠ JWT_AUDIENCE settings)%Z →
  result (get_email_from_token sign settings
            (Jwt.signed sign
               (models.JWTPayload_dict
                  (models.mkJWTPayload audience iat exp address))
               key (JWT_ALGORITHM settings)) sk) w
  = Raise could_not_validate.
Proof.
  intros H. apply get_email_from_token_raises_could_not_validate.
  apply raises_iff_not_returns. intros s Hs.
  apply get_email_from_token_returns_iff in Hs as (_ & _ & _ & Hv & _).
  apply validate_claims_Return in Hv as (Hi & _ & He & Ha & _).
  destruct (Hi _ eq_refl) as (? & [= <-] & ?).
  destruct (He _ eq_refl) as (? & [= <-] & ?).
  injection Ha as Ha. destruct H as [?|[?|?]]; [lia | lia | done].
Qed.

End TokenFacts.

Section FailureFacts.

Variable sign : string → string → gmap string json → string.
Variable settings : Settings.



End FailureFacts.

(** C1 as stated fails: the validator compares the whole seconds of the
    expiry with the clock, so that a token is refused in the last fraction
    of a second before the expiry it carries; and on a host west of UTC the
    issued-at time it carries is hours ahead of the clock, so that it is
    refused right after its issue, long before its expiry. *)
Lemma token_refused_before_expiry :
  (let w := Sample.host (λ k, 1000000000 + 500000 * N.of_nat k)%N 0 in
   let w' := Sample.host (λ _, 1060200000%N) 0 in
   let token :=
     Jwt.signed Sample.sign
       (models.JWTPayload_dict
          (models.mkJWTPayload "app:auth" 1000000000 1060500000
             "a@example.com"))
       "s3cr3t" "HS256" in
   result (create_access_token_for_user Sample.sign Sample.settings
             (PyUser Sample.alice) "s3cr3t" "app:auth" 1) w
     = Return (Some token)
   ∧ (Z.of_N (clock w' (reads w')) < 1060500000)%Z
   ∧ result (get_email_from_token Sample.sign Sample.settings token
               "s3cr3t") w'
     = Raise could_not_validate)
  ∧ (let w := Sample.world 1000 (-18000) in
     let w' := Sample.world 1002 (-18000) in
     let token :=
       Jwt.signed Sample.sign
         (models.JWTPayload_dict
            (models.mkJWTPayload "app:auth" 19000000000 20801000000
               "a@example.com"))
         "s3cr3t" "HS256" in
     result (create_access_token_for_user Sample.sign Sample.settings
               (PyUser Sample.alice) "s3cr3t" "app:auth" 30) w
       = Return (Some token)
     ∧ (Z.of_N (clock w' (reads w')) < 20801000000)%Z
     ∧ result (get_email_from_token Sample.sign Sample.settings token
                 "s3cr3t") w'
       = Raise could_not_validate).
Proof. cbv zeta. repeat split. Qed.

(** C1, amended: when the expiry date can be computed and converted and the
    signing library takes the algorithm and the key, a token issued for a
    user under the configured secret key and a non-empty configured
    audience validates to that user's email at every reading of the clock
    that is not before the whole second of the issued-at time it carries
    and is before the whole second of the expiry it carries. *)
Theorem token_round_trip
    (sign : string → string → gmap string json → string)
    (settings : Settings) (u : models.UserInDB)
    (secret_key audience : string) (expires_in : Z) (w : World)
    (iat expiry exp : Z) :
  secret_key = SECRET_KEY settings →
  audience = JWT_AUDIENCE settings →
  audience ≠ EmptyString →
  localtime w (Z.of_N (clock w (reads w))) = Return iat →
  Datetime.plus_minutes (Z.of_N (clock w (S (reads w)))) expires_in
    = Return expiry →
  localtime w expiry = Return exp →
  jwt_refusal w (JWT_ALGORITHM settings) secret_key = None →
  ∃ token,
    result (create_access_token_for_user sign settings (PyUser u) secret_key
              audience expires_in) w = Return (Some token)
    ∧ ∀ (sk : string) (w' : World),
        jwt_refusal w' (JWT_ALGORITHM settings) (SECRET_KEY settings)
          = None →
        (Jwt.whole iat ≤ Z.of_N (clock w' (reads w')) < Jwt.whole exp)%Z →
        result (get_email_from_token sign settings token sk) w'
        = Return (models.email u).
Proof.
  intros -> Haud Hne Hiat Hexpiry Hexp Href. eexists.
  split; [by eapply result_create_access_token_for_user |].
  intros sk w' Href' Hnow. by apply get_email_from_token_signed.
Qed.

Lemma token_round_trip_witness :
  ∃ token,
    result (create_access_token_for_user Sample.sign Sample.settings
              (PyUser Sample.alice) "s3cr3t" "app:auth" 30)
      (Sample.world 1000 0) = Return (Some token)
    ∧ ∀ (sk : string) (w' : World),
        jwt_refusal w' "HS256" "s3cr3t" = None →
        (Jwt.whole 1000000000 ≤ Z.of_N (clock w' (reads w'))
         < Jwt.whole 2801000000)%Z →
        result (get_email_from_token Sample.sign Sample.settings token sk) w'
        = Return "a@example.com".
Proof.
  apply (token_round_trip Sample.sign Sample.settings Sample.alice
           "s3cr3t" "app:auth" 30 (Sample.world 1000 0)
           1000000000 2801000000 2801000000);
    try reflexivity.
  discriminate.
Defined.

(** Issue, then validate at the next reading of the clock. *)
Example issue_then_validate :
  result
    (token ← create_access_token_for_user Sample.sign Sample.settings
               (PyUser Sample.alice) "s3cr3t" "app:auth" 30;
     match token with
     | Some t => get_email_from_token Sample.sign Sample.settings t "other"
     | None => mret EmptyString
     end)
    (Sample.world 1000 0)
  = Return "a@example.com".
Proof. reflexivity. Qed.




(** A token issued with a lifetime of -1 minute, validated right after. *)
Example issue_expired_then_validate :
  result
    (token ← create_access_token_for_user Sample.sign Sample.settings
               (PyUser Sample.alice) "s3cr3t" "app:auth" (-1);
     match token with
     | Some t => get_email_from_token Sample.sign Sample.settings t "s3cr3t"
     | None => mret EmptyString
     end)
    (Sample.world 1000 0)
  = Raise could_not_validate.
Proof. reflexivity. Qed.

(** C4 as stated fails: for an absent identity
    [create_access_token_for_user] returns [None] and raises nothing. *)
Lemma create_access_token_for_user_None_returns :
  create_access_token_for_user Sample.sign Sample.settings PyNone
    "s3cr3t" "app:auth" 30 (Sample.world 1000 0)
  = (Return None, Sample.world 1000 0).
Proof. reflexivity. Qed.

(** C4, amended: for an identity that is absent or is no user record,
    [create_access_token_for_user] returns [None]: it raises nothing and
    emits no token. *)
Theorem create_access_token_for_user_invalid_identity
    (sign : string → string → gmap string json → string)
    (settings : Settings) (user : PyObject)
    (secret_key audience : string) (expires_in : Z) (w : World) :
  as_UserInDB user = None →
  create_access_token_for_user sign settings user secret_key audience
    expires_in w = (Return None, w).
Proof. by destruct user as [|u|[]]. Qed.

Lemma create_access_token_for_user_invalid_identity_witness :
  create_access_token_for_user Sample.sign Sample.settings (PyOther true)
    "s3cr3t" "app:auth" 30 (Sample.world 1000 0)
  = (Return None, Sample.world 1000 0).
Proof.
  apply create_access_token_for_user_invalid_identity. reflexivity.
Defined.

(** C5 as stated fails: the expiry is computed from a second reading of the
    clock, so it is not the issued-at time plus the lifetime when the clock
    has moved in between; on a host east of UTC the issued-at time is not
    the current time; for a lifetime that takes the expiry date out of the
    range of [datetime] no claim set is signed, the call raises an
    [OverflowError]; and for an algorithm the signing library does not
    know it raises as well. *)
Lemma create_access_token_for_user_two_readings :
  (result (create_access_token_for_user Sample.sign Sample.settings
             (PyUser Sample.alice) "s3cr3t" "app:auth" 30)
     (Sample.world 1000 0)
   = Return (Some (Jwt.signed Sample.sign
        (models.JWTPayload_dict
           (models.mkJWTPayload "app:auth" 1000000000 2801000000
              "a@example.com"))
        "s3cr3t" "HS256"))
   ∧ (2801000000 ≠ 1000000000 + 30 * 60000000)%Z)
  ∧ (result (create_access_token_for_user Sample.sign Sample.settings
               (PyUser Sample.alice) "s3cr3t" "app:auth" 30)
       (Sample.world 1000 3600)
     = Return (Some (Jwt.signed Sample.sign
          (models.JWTPayload_dict
             (models.mkJWTPayload "app:auth" (-2600000000) (-799000000)
                "a@example.com"))
          "s3cr3t" "HS256"))
     ∧ (-2600000000 ≠ Z.of_N (clock (Sample.world 1000 3600) 0))%Z)
  ∧ result (create_access_token_for_user Sample.sign Sample.settings
              (PyUser Sample.alice) "s3cr3t" "app:auth" 1000000000000000)
      (Sample.world 1000 0)
    = Raise OverflowError
  ∧ result (create_access_token_for_user Sample.sign
              (mkSettings "s3cr3t" "app:auth" "HS999" 30)
              (PyUser Sample.alice) "s3cr3t" "app:auth" 30)
      (Sample.world 1000 0)
    = Raise NotImplementedError.
Proof. repeat split; try reflexivity; cbn; lia. Qed.

(** C5, amended: on a host whose local time is UTC at the two dates, when
    the expiry date can be computed and the signing library takes the
    algorithm and the key, the signed claim set has the given audience, the
    user's email as subject, the current time at a first reading of the
    clock as issued-at time, and the current time at a second reading of
    the clock plus the lifetime as expiry; the expiry is the issued-at time
    plus the lifetime exactly when the two readings agree. *)
Theorem create_access_token_for_user_claims
    (sign : string → string → gmap string json → string)
    (settings : Settings) (u : models.UserInDB)
    (secret_key audience : string) (expires_in : Z) (w : World)
    (expiry : Z) :
  localtime w (Z.of_N (clock w (reads w)))
    = Return (Z.of_N (clock w (reads w))) →
  Datetime.plus_minutes (Z.of_N (clock w (S (reads w)))) expires_in
    = Return expiry →
  localtime w expiry = Return expiry →
  jwt_refusal w (JWT_ALGORITHM settings) secret_key = None →
  ∃ payload,
    result (create_access_token_for_user sign settings (PyUser u) secret_key
              audience expires_in) w
    = Return (Some (Jwt.signed sign (models.JWTPayload_dict payload)
                      secret_key (JWT_ALGORITHM settings)))
    ∧ models.aud payload = audience
    ∧ models.sub payload = models.email u
    ∧ models.iat payload = Z.of_N (clock w (reads w))
    ∧ models.exp payload
      = (Z.of_N (clock w (S (reads w))) + expires_in * 60000000)%Z
    ∧ (models.exp payload
       = (models.iat payload + expires_in * 60000000)%Z ↔
       clock w (S (reads w)) = clock w (reads w)).
Proof.
  intros Hiat Hexpiry Hexp Href. eexists.
  split; [by eapply result_create_access_token_for_user |].
  apply plus_minutes_Return in Hexpiry as ->.
  cbn. repeat split; lia.
Qed.

Lemma create_access_token_for_user_claims_witness :
  ∃ payload,
    result (create_access_token_for_user Sample.sign Sample.settings
              (PyUser Sample.alice) "s3cr3t" "app:auth" 30)
      (Sample.world 1000 0)
    = Return (Some (Jwt.signed Sample.sign (models.JWTPayload_dict payload)
                      "s3cr3t" "HS256"))
    ∧ models.aud payload = "app:auth"
    ∧ models.sub payload = "a@example.com"
    ∧ models.iat payload = 1000000000%Z
    ∧ models.exp payload = (1001000000 + 30 * 60000000)%Z
    ∧ (models.exp payload = (models.iat payload + 30 * 60000000)%Z ↔
       1001000000%N = 1000000000%N).
Proof.
  apply (create_access_token_for_user_claims Sample.sign Sample.settings
           Sample.alice "s3cr3t" "app:auth" 30 (Sample.world 1000 0)
           2801000000);
    reflexivity.
Defined.

(** C8: an unknown email and a known email with a password that fails
    verification end in the same exception, and leave the world as it was. *)
Theorem authenticate_user_uniform_failure
    (bcrypt : string → string → string → string → string)
    (sign : string → string → gmap string json → string)
    (settings : Settings)
    (db1 db2 : gmap string models.UserInDB) (u : models.UserInDB)
    (email1 password1 email2 password2 : string) (w1 w2 : World) :
  db1 !! email1 = None →
  db2 !! email2 = Some u →
  verify_password bcrypt password2 (models.salt u) (models.password u)
    = Return false →
  authenticate_user bcrypt sign settings db1 email1 password1 w1
    = (Raise unsuccessful, w1)
  ∧ authenticate_user bcrypt sign settings db2 email2 password2 w2
    = (Raise unsuccessful, w2).
Proof.
  intros H1 H2 Hv. unfold authenticate_user, get_by_email.
  unfold mbind, M_bind, bind, mret, M_ret, ret, lift.
  rewrite H1, H2, Hv. done.
Qed.

Lemma authenticate_user_uniform_failure_witness :
  authenticate_user Sample.bcrypt Sample.sign Sample.settings Sample.db
    "nobody@example.com" "wonderland" (Sample.world 1000 0)
    = (Raise unsuccessful, Sample.world 1000 0)
  ∧ authenticate_user Sample.bcrypt Sample.sign Sample.settings Sample.db
      "a@example.com" "w0nderland" (Sample.world 1000 0)
    = (Raise unsuccessful, Sample.world 1000 0).
Proof.
  apply (authenticate_user_uniform_failure _ _ _ _ _ Sample.alice);
    reflexivity.
Defined.

(** The right password logs in. *)
Example authenticate_user_success :
  result (authenticate_user Sample.bcrypt Sample.sign Sample.settings
            Sample.db "a@example.com" "wonderland") (Sample.world 1000 0)
  = Return (models.mkAccessToken
      (Some (Jwt.signed Sample.sign
         (models.JWTPayload_dict
            (models.mkJWTPayload "app:auth" 1000000000 2801000000
               "a@example.com"))
         "s3cr3t" "HS256")) "bearer").
Proof. reflexivity. Qed.

(** C9: the [secret_key] argument of [get_email_from_token] has no
    influence: two calls that differ in it only behave the same. *)
Theorem get_email_from_token_ignores_secret_key
    (sign : string → string → gmap string json → string)
    (settings : Settings) (token : Token) (sk1 sk2 : string) (w : World) :
  get_email_from_token sign settings token sk1 w
  = get_email_from_token sign settings token sk2 w.
Proof. reflexivity. Qed.

(** * Further properties of the service *)

(** ** Setting a password *)

(** A password with the salt that [generate_salt] made is a secret the
    library takes when the password is. *)
Lemma secret_ok_generated (P block : string) :
  Str.has_nul P = false →
  Str.len P + 29 ≤ Passlib.MAX_PASSWORD_SIZE →
  Passlib.secret_ok
    (P +:+ Passlib.default_ident +:+ Passlib.default_rounds +:+ "$"
     +:+ Passlib.salt_of block) = true.
Proof.
  intros Hnul Hlen. apply secret_ok_iff.
  change (Passlib.default_ident +:+ Passlib.default_rounds +:+ "$"
          +:+ Passlib.salt_of block)
    with ("$2b$12$" +:+ Passlib.salt_of block).
  rewrite !has_nul_app, !len_app.
  destruct (all_b64_plain _ (all_b64_salt_of block)) as [-> ->].
  rewrite length_salt_of, Hnul. cbn. split; [done | lia].
Qed.

Section PasswordSetFacts.

Variable bcrypt : string → string → string → string → string.

Lemma result_hash_password_cases (P s : string) (w : World) :
  result (hash_password bcrypt P s) w
  = if Passlib.secret_ok (P +:+ s)
    then Return (Passlib.hash_with bcrypt
                   (Passlib.salt_of (entropy w (draws w))) (P +:+ s))
    else Raise ValueError.
Proof.
  destruct (Passlib.secret_ok (P +:+ s)) eqn:Hok.
  - by apply result_hash_password.
  - unfold hash_password, Passlib.hash, Passlib.secret_ok in *.
    destruct (Nat.ltb_spec Passlib.MAX_PASSWORD_SIZE (Str.len (P +:+ s)))
      as [Hlt|Hge]; [done |].
    apply Nat.leb_le in Hge. rewrite Hge, andb_true_r in Hok.
    apply negb_false_iff in Hok.
    unfold result, mbind, M_bind, bind, urandom. cbn. by rewrite Hok.
Qed.

(** [create_salt_and_hashed_password], step by step. *)
Lemma result_create_salt_and_hashed_password_cases (P : string) (w : World) :
  result (create_salt_and_hashed_password bcrypt P) w
  = let salt :=
      Passlib.default_ident +:+ Passlib.default_rounds +:+ "$"
      +:+ Passlib.salt_of (entropy w (draws w)) in
    if Passlib.secret_ok (P +:+ salt)
    then Return (models.mkUserPasswordUpdate salt
                   (Passlib.hash_with bcrypt
                      (Passlib.salt_of (entropy w (S (draws w))))
                      (P +:+ salt)))
    else Raise ValueError.
Proof.
  cbv zeta.
  set (salt := Passlib.default_ident +:+ _).
  pose (w1 := mkWorld (clock w) (reads w) (entropy w) (S (draws w))
                (localtime w) (jwt_refusal w)).
  pose proof (result_hash_password_cases P salt w1) as H.
  unfold result in *.
  unfold create_salt_and_hashed_password, generate_salt, Passlib.gensalt.
  unfold mbind, M_bind, bind, urandom, mret, M_ret, ret.
  fold salt. fold w1.
  destruct (hash_password bcrypt P salt w1) as [[h|e] w2]; cbn in *.
  - destruct (Passlib.secret_ok (P +:+ salt)); congruence.
  - destruct (Passlib.secret_ok (P +:+ salt)); congruence.
Qed.

(** What [create_salt_and_hashed_password] returns, when it returns. *)
Lemma create_salt_and_hashed_password_Return (P : string) (w : World)
    (upd : models.UserPasswordUpdate) :
  result (create_salt_and_hashed_password bcrypt P) w = Return upd →
  Passlib.secret_ok (P +:+ models.upd_salt upd) = true
  ∧ upd = models.mkUserPasswordUpdate
      (Passlib.default_ident +:+ Passlib.default_rounds +:+ "$"
       +:+ Passlib.salt_of (entropy w (draws w)))
      (Passlib.hash_with bcrypt (Passlib.salt_of (entropy w (S (draws w))))
         (P +:+ Passlib.default_ident +:+ Passlib.default_rounds +:+ "$"
          +:+ Passlib.salt_of (entropy w (draws w)))).
Proof.
  rewrite result_create_salt_and_hashed_password_cases. cbv zeta.
  destruct (Passlib.secret_ok _) eqn:Hok; [| done].
  intros [= <-]. done.
Qed.

Lemma result_create_salt_and_hashed_password (P : string) (w : World) :
  Str.has_nul P = false →
  Str.len P + 29 ≤ Passlib.MAX_PASSWORD_SIZE →
  result (create_salt_and_hashed_password bcrypt P) w
  = Return (models.mkUserPasswordUpdate
      (Passlib.default_ident +:+ Passlib.default_rounds +:+ "$"
       +:+ Passlib.salt_of (entropy w (draws w)))
      (Passlib.hash_with bcrypt (Passlib.salt_of (entropy w (S (draws w))))
         (P +:+ Passlib.default_ident +:+ Passlib.default_rounds +:+ "$"
          +:+ Passlib.salt_of (entropy w (draws w))))).
Proof.
  intros Hnul Hlen.
  rewrite result_create_salt_and_hashed_password_cases. cbv zeta.
  by rewrite secret_ok_generated.
Qed.

End PasswordSetFacts.

(** X1: for a password without NUL byte that leaves room for the salt
    within the library's size limit, the salt and hash that
    [create_salt_and_hashed_password] returns verify against that
    password. *)
Theorem create_salt_and_hashed_password_verifies
    (bcrypt : string → string → string → string → string)
    (P : string) (w : World) :
  Str.has_nul P = false →
  Str.len P + 29 ≤ Passlib.MAX_PASSWORD_SIZE →
  ∃ upd,
    result (create_salt_and_hashed_password bcrypt P) w = Return upd
    ∧ verify_password bcrypt P (models.upd_salt upd) (models.upd_password upd)
      = Return true.
Proof.
  intros Hnul Hlen. eexists.
  split; [by apply result_create_salt_and_hashed_password |].
  cbn [models.upd_salt models.upd_password].
  rewrite verify_password_hash_with
    by auto using length_salt_of, all_b64_salt_of, secret_ok_generated.
  by rewrite bool_decide_eq_true_2.
Qed.

Lemma create_salt_and_hashed_password_verifies_witness :
  ∃ upd,
    result (create_salt_and_hashed_password Sample.bcrypt "wonderland")
      (Sample.world 1000 0) = Return upd
    ∧ verify_password Sample.bcrypt "wonderland" (models.upd_salt upd)
        (models.upd_password upd)
      = Return true.
Proof.
  apply create_salt_and_hashed_password_verifies;
    [reflexivity | apply Nat.leb_le; reflexivity].
Defined.

(** ** Logging in *)

Section LoginFacts.

Variable bcrypt : string → string → string → string → string.
Variable sign : string → string → gmap string json → string.
Variable settings : Settings.

(** What [authenticate_user] does once the storage answered. *)
Lemma authenticate_user_cases (db : gmap string models.UserInDB)
    (email password : string) (w : World) :
  authenticate_user bcrypt sign settings db email password w
  = match db !! email with
    | None => (Raise unsuccessful, w)
    | Some u =>
        match verify_password bcrypt password (models.salt u)
                (models.password u) with
        | Raise e => (Raise e, w)
        | Return false => (Raise unsuccessful, w)
        | Return true =>
            (token ← create_access_token_for_user sign settings (PyUser u)
                       (SECRET_KEY settings) (JWT_AUDIENCE settings)
                       (ACCESS_TOKEN_EXPIRE_MINUTES settings);
             mret (models.mkAccessToken token "bearer")) w
        end
    end.
Proof.
  unfold authenticate_user, get_by_email.
  unfold mbind, M_bind, bind, mret, M_ret, ret, lift at 1.
  destruct (db !! email) as [u|]; [| reflexivity].
  unfold lift. destruct (verify_password _ _ _ _) as [[]|e]; reflexivity.
Qed.

(** A verified login ends as the issue of the token does. *)
Lemma result_authenticate_user_verified (db : gmap string models.UserInDB)
    (email password : string) (u : models.UserInDB) (w : World) :
  db !! email = Some u →
  verify_password bcrypt password (models.salt u) (models.password u)
    = Return true →
  result (authenticate_user bcrypt sign settings db email password) w
  = match result (create_access_token_for_user sign settings (PyUser u)
                    (SECRET_KEY settings) (JWT_AUDIENCE settings)
                    (ACCESS_TOKEN_EXPIRE_MINUTES settings)) w with
    | Return token => Return (models.mkAccessToken token "bearer")
    | Raise e => Raise e
    end.
Proof.
  intros Hdb Hv. unfold result. rewrite authenticate_user_cases, Hdb, Hv.
  unfold mbind, M_bind, bind.
  by destruct (create_access_token_for_user _ _ _ _ _ _ w) as [[t|e] w'].
Qed.

End LoginFacts.

(** X3: [authenticate_user] returns only when the storage knows the email
    and [verify_password] answers true for the stored salt and hash; what it
    returns is a bearer token that is present, never [None]. *)
Theorem authenticate_user_returns_only
    (bcrypt : string → string → string → string → string)
    (sign : string → string → gmap string json → string)
    (settings : Settings) (db : gmap string models.UserInDB)
    (email password : string) (w : World) (t : models.AccessToken) :
  result (authenticate_user bcrypt sign settings db email password) w
    = Return t →
  (∃ u, db !! email = Some u
        ∧ verify_password bcrypt password (models.salt u) (models.password u)
          = Return true)
  ∧ models.token_type t = "bearer"
  ∧ models.access_token t ≠ None.
Proof.
  intros Ht.
  destruct (db !! email) as [u|] eqn:Hdb; cycle 1.
  { unfold result in Ht. by rewrite authenticate_user_cases, Hdb in Ht. }
  destruct (verify_password bcrypt password (models.salt u)
              (models.password u)) as [[]|e] eqn:Hv;
    try (unfold result in Ht;
         by rewrite authenticate_user_cases, Hdb, Hv in Ht).
  split; [eauto |].
  rewrite (result_authenticate_user_verified _ _ _ _ _ _ u) in Ht by done.
  rewrite result_create_access_token_for_user_cases in Ht.
  repeat case_match; try done. simplify_eq. by split.
Qed.

Lemma authenticate_user_returns_only_witness :
  let t :=
    models.mkAccessToken
      (Some (Jwt.signed Sample.sign
         (models.JWTPayload_dict
            (models.mkJWTPayload "app:auth" 1000000000 2801000000
               "a@example.com"))
         "s3cr3t" "HS256")) "bearer" in
  (∃ u, Sample.db !! "a@example.com" = Some u
        ∧ verify_password Sample.bcrypt "wonderland" (models.salt u)
            (models.password u)
          = Return true)
  ∧ models.token_type t = "bearer"
  ∧ models.access_token t ≠ None.
Proof.
  cbv zeta.
  apply (authenticate_user_returns_only Sample.bcrypt Sample.sign
           Sample.settings Sample.db "a@example.com" "wonderland"
           (Sample.world 1000 0)).
  reflexivity.
Defined.

(** X4: when the expiry date can be computed and converted, the signing
    library takes the configured algorithm and key and the configured
    audience is not empty, the token a successful login returns validates
    to the email of the stored user record at every reading of the clock
    from the whole second of its issued-at time up to the whole second of
    its expiry. *)
Theorem authenticate_user_token_round_trip
    (bcrypt : string → string → string → string → string)
    (sign : string → string → gmap string json → string)
    (settings : Settings) (db : gmap string models.UserInDB)
    (email password : string) (u : models.UserInDB) (w : World)
    (iat expiry exp : Z) :
  db !! email = Some u →
  verify_password bcrypt password (models.salt u) (models.password u)
    = Return true →
  JWT_AUDIENCE settings ≠ EmptyString →
  localtime w (Z.of_N (clock w (reads w))) = Return iat →
  Datetime.plus_minutes (Z.of_N (clock w (S (reads w))))
    (ACCESS_TOKEN_EXPIRE_MINUTES settings) = Return expiry →
  localtime w expiry = Return exp →
  jwt_refusal w (JWT_ALGORITHM settings) (SECRET_KEY settings) = None →
  ∃ token,
    result (authenticate_user bcrypt sign settings db email password) w
      = Return (models.mkAccessToken (Some token) "bearer")
    ∧ ∀ (sk : string) (w' : World),
        jwt_refusal w' (JWT_ALGORITHM settings) (SECRET_KEY settings)
          = None →
        (Jwt.whole iat ≤ Z.of_N (clock w' (reads w')) < Jwt.whole exp)%Z →
        result (get_email_from_token sign settings token sk) w'
        = Return (models.email u).
Proof.
  intros Hdb Hv Hne Hiat Hexpiry Hexp Href. eexists. split.
  - rewrite (result_authenticate_user_verified _ _ _ _ _ _ u) by done.
    by erewrite result_create_access_token_for_user.
  - intros sk w' Href' Hnow. by apply get_email_from_token_signed.
Qed.

Lemma authenticate_user_token_round_trip_witness :
  ∃ token,
    result (authenticate_user Sample.bcrypt Sample.sign Sample.settings
              Sample.db "a@example.com" "wonderland") (Sample.world 1000 0)
      = Return (models.mkAccessToken (Some token) "bearer")
    ∧ ∀ (sk : string) (w' : World),
        jwt_refusal w' "HS256" "s3cr3t" = None →
        (Jwt.whole 1000000000 ≤ Z.of_N (clock w' (reads w'))
         < Jwt.whole 2801000000)%Z →
        result (get_email_from_token Sample.sign Sample.settings token sk) w'
        = Return "a@example.com".
Proof.
  apply (authenticate_user_token_round_trip Sample.bcrypt Sample.sign
           Sample.settings Sample.db "a@example.com" "wonderland"
           Sample.alice (Sample.world 1000 0)
           1000000000 2801000000 2801000000);
    try reflexivity.
  discriminate.
Defined.

(** X5: when the stored hash of a known user does not parse as a bcrypt
    hash, [authenticate_user] ends in the hashing library's exception, not
    in the 401 failure of a wrong password. *)
Theorem authenticate_user_unparsable_hash
    (bcrypt : string → string → string → string → string)
    (sign : string → string → gmap string json → string)
    (settings : Settings) (db : gmap string models.UserInDB)
    (email password : string) (u : models.UserInDB) (e : exn) (w : World) :
  db !! email = Some u →
  Passlib.from_string (models.password u) = Raise e →
  authenticate_user bcrypt sign settings db email password w = (Raise e, w)
  ∧ e ≠ unsuccessful.
Proof.
  intros Hdb Hparse. rewrite authenticate_user_cases, Hdb.
  unfold verify_password, Passlib.verify. rewrite Hparse. split; [done |].
  unfold Passlib.from_string in Hparse. repeat case_match; naive_solver.
Qed.

Lemma authenticate_user_unparsable_hash_witness :
  authenticate_user Sample.bcrypt Sample.sign Sample.settings
    (<["b@example.com" := models.mkUserInDB "b@example.com" "NaCl" "plain"]>
       Sample.db)
    "b@example.com" "plain" (Sample.world 1000 0)
  = (Raise UnknownHashError, Sample.world 1000 0)
  ∧ UnknownHashError ≠ unsuccessful.
Proof.
  apply (authenticate_user_unparsable_hash _ _ _ _ _ _
           (models.mkUserInDB "b@example.com" "NaCl" "plain"));
    reflexivity.
Defined.

(** X6: a user stored with the salt and hash that
    [create_salt_and_hashed_password] returned for a password logs in with
    that password, when the expiry date of the token can be computed and
    converted and the signing library takes the configured algorithm and
    key. *)
Theorem authenticate_user_after_password_set
    (bcrypt : string → string → string → string → string)
    (sign : string → string → gmap string json → string)
    (settings : Settings) (db : gmap string models.UserInDB)
    (email address P : string) (upd : models.UserPasswordUpdate)
    (w0 w : World) (iat expiry exp : Z) :
  result (create_salt_and_hashed_password bcrypt P) w0 = Return upd →
  db !! email
    = Some (models.mkUserInDB address (models.upd_salt upd)
              (models.upd_password upd)) →
  localtime w (Z.of_N (clock w (reads w))) = Return iat →
  Datetime.plus_minutes (Z.of_N (clock w (S (reads w))))
    (ACCESS_TOKEN_EXPIRE_MINUTES settings) = Return expiry →
  localtime w expiry = Return exp →
  jwt_refusal w (JWT_ALGORITHM settings) (SECRET_KEY settings) = None →
  ∃ token,
    result (authenticate_user bcrypt sign settings db email P) w
    = Return (models.mkAccessToken (Some token) "bearer").
Proof.
  intros Hset Hdb Hiat Hexpiry Hexp Href.
  apply create_salt_and_hashed_password_Return in Hset as [Hok ->].
  cbn [models.upd_salt models.upd_password] in *. eexists.
  erewrite result_authenticate_user_verified; [| exact Hdb |].
  - by erewrite result_create_access_token_for_user.
  - cbn [models.salt models.password].
    rewrite verify_password_hash_with
      by auto using length_salt_of, all_b64_salt_of.
    by rewrite bool_decide_eq_true_2.
Qed.

Lemma authenticate_user_after_password_set_witness :
  let upd :=
    models.mkUserPasswordUpdate
      (Passlib.default_ident +:+ Passlib.default_rounds +:+ "$"
       +:+ Passlib.salt_of "block")
      (Passlib.hash_with Sample.bcrypt (Passlib.salt_of ".block")
         ("wonderland" +:+ Passlib.default_ident +:+ Passlib.default_rounds
          +:+ "$" +:+ Passlib.salt_of "block")) in
  let db : gmap string models.UserInDB :=
    <["c@example.com" :=
        models.mkUserInDB "c@example.com" (models.upd_salt upd)
          (models.upd_password upd)]> ∅ in
  ∃ token,
    result (authenticate_user Sample.bcrypt Sample.sign Sample.settings db
              "c@example.com" "wonderland") (Sample.world 2000 0)
    = Return (models.mkAccessToken (Some token) "bearer").
Proof.
  cbv zeta.
  eapply (authenticate_user_after_password_set Sample.bcrypt Sample.sign
            Sample.settings _ "c@example.com" "c@example.com" "wonderland" _
            (Sample.world 1000 0) (Sample.world 2000 0)
            2000000000 3801000000 3801000000);
    reflexivity.
Defined.

(** ** Tokens that do not validate *)

(** X8: when the expiry date can be computed and converted and the signing
    library takes the algorithm and the key, a token issued for another
    audience than the configured one never validates, whatever the key it
    was signed with and whenever it is presented to a validator whose
    signing library takes the configured algorithm and key. *)
Theorem token_for_other_audience_rejected
    (sign : string → string → gmap string json → string)
    (settings : Settings) (u : models.UserInDB)
    (secret_key audience : string) (expires_in : Z) (w : World)
    (iat expiry exp : Z) :
  audience ≠ JWT_AUDIENCE settings →
  localtime w (Z.of_N (clock w (reads w))) = Return iat →
  Datetime.plus_minutes (Z.of_N (clock w (S (reads w)))) expires_in
    = Return expiry →
  localtime w expiry = Return exp →
  jwt_refusal w (JWT_ALGORITHM settings) secret_key = None →
  ∃ token,
    result (create_access_token_for_user sign settings (PyUser u) secret_key
              audience expires_in) w = Return (Some token)
    ∧ ∀ (sk : string) (w' : World),
        jwt_refusal w' (JWT_ALGORITHM settings) (SECRET_KEY settings)
          = None →
        result (get_email_from_token sign settings token sk) w'
        = Raise could_not_validate.
Proof.
  intros Haud Hiat Hexpiry Hexp Href. eexists.
  split; [by eapply result_create_access_token_for_user |].
  intros sk w' _. apply get_email_from_token_signed_raises. auto.
Qed.

Lemma token_for_other_audience_rejected_witness :
  ∃ token,
    result (create_access_token_for_user Sample.sign Sample.settings
              (PyUser Sample.alice) "s3cr3t" "app:other" 30)
      (Sample.world 1000 0) = Return (Some token)
    ∧ ∀ (sk : string) (w' : World),
        jwt_refusal w' "HS256" "s3cr3t" = None →
        result (get_email_from_token Sample.sign Sample.settings token sk) w'
        = Raise could_not_validate.
Proof.
  apply (token_for_other_audience_rejected Sample.sign Sample.settings
           Sample.alice "s3cr3t" "app:other" 30 (Sample.world 1000 0)
           1000000000 2801000000 2801000000);
    try reflexivity.
  discriminate.
Defined.

(** X9: when the expiry date can be computed and converted and the signing
    library takes the algorithm and the key, the issued token does not
    validate at any reading of the clock that is at or after the whole
    second of the expiry it carries. *)
Theorem token_rejected_from_expiry_on
    (sign : string → string → gmap string json → string)
    (settings : Settings) (u : models.UserInDB)
    (secret_key audience : string) (expires_in : Z) (w : World)
    (iat expiry exp : Z) :
  localtime w (Z.of_N (clock w (reads w))) = Return iat →
  Datetime.plus_minutes (Z.of_N (clock w (S (reads w)))) expires_in
    = Return expiry →
  localtime w expiry = Return exp →
  jwt_refusal w (JWT_ALGORITHM settings) secret_key = None →
  ∃ token,
    result (create_access_token_for_user sign settings (PyUser u) secret_key
              audience expires_in) w = Return (Some token)
    ∧ ∀ (sk : string) (w' : World),
        jwt_refusal w' (JWT_ALGORITHM settings) (SECRET_KEY settings)
          = None →
        (Jwt.whole exp ≤ Z.of_N (clock w' (reads w')))%Z →
        result (get_email_from_token sign settings token sk) w'
        = Raise could_not_validate.
Proof.
  intros Hiat Hexpiry Hexp Href. eexists.
  split; [by eapply result_create_access_token_for_user |].
  intros sk w' _ Hnow. apply get_email_from_token_signed_raises. auto.
Qed.

Lemma token_rejected_from_expiry_on_witness :
  ∃ token,
    result (create_access_token_for_user Sample.sign Sample.settings
              (PyUser Sample.alice) "s3cr3t" "app:auth" 30)
      (Sample.world 1000 0) = Return (Some token)
    ∧ ∀ (sk : string) (w' : World),
        jwt_refusal w' "HS256" "s3cr3t" = None →
        (Jwt.whole 2801000000 ≤ Z.of_N (clock w' (reads w')))%Z →
        result (get_email_from_token Sample.sign Sample.settings token sk) w'
        = Raise could_not_validate.
Proof.
  apply (token_rejected_from_expiry_on Sample.sign Sample.settings
           Sample.alice "s3cr3t" "app:auth" 30 (Sample.world 1000 0)
           1000000000 2801000000 2801000000);
    reflexivity.
Defined.

(** An issued token, presented at the second of its expiry. *)
Example issue_then_validate_at_expiry :
  result
    (token ← create_access_token_for_user Sample.sign Sample.settings
               (PyUser Sample.alice) "s3cr3t" "app:auth" 30;
     match token with
     | Some t =>
         lift (result (get_email_from_token Sample.sign Sample.settings t
                         "s3cr3t") (Sample.world 2801 0))
     | None => mret EmptyString
     end)
    (Sample.world 1000 0)
  = Raise could_not_validate.
Proof. reflexivity. Qed.

(** X10: on a host whose local time is UTC at the two dates, when the
    expiry date can be computed and the signing library takes the algorithm
    and the key, a token issued with a lifetime of zero or less never
    validates at a reading of the clock that is not before the readings of
    its issue, not even within the second of its issue. *)
Theorem token_with_no_lifetime_rejected
    (sign : string → string → gmap string json → string)
    (settings : Settings) (u : models.UserInDB)
    (secret_key audience : string) (expires_in : Z) (w : World)
    (expiry : Z) :
  (expires_in ≤ 0)%Z →
  localtime w (Z.of_N (clock w (reads w)))
    = Return (Z.of_N (clock w (reads w))) →
  Datetime.plus_minutes (Z.of_N (clock w (S (reads w)))) expires_in
    = Return expiry →
  localtime w expiry = Return expiry →
  jwt_refusal w (JWT_ALGORITHM settings) secret_key = None →
  ∃ token,
    result (create_access_token_for_user sign settings (PyUser u) secret_key
              audience expires_in) w = Return (Some token)
    ∧ ∀ (sk : string) (w' : World),
        jwt_refusal w' (JWT_ALGORITHM settings) (SECRET_KEY settings)
          = None →
        (clock w (S (reads w)) ≤ clock w' (reads w'))%N →
        result (get_email_from_token sign settings token sk) w'
        = Raise could_not_validate.
Proof.
  intros Hlife Hiat Hexpiry Hexp Href. eexists.
  split; [by eapply result_create_access_token_for_user |].
  intros sk w' _ Hclock. apply get_email_from_token_signed_raises. left.
  apply plus_minutes_Return in Hexpiry as ->.
  apply whole_le_now; lia.
Qed.

Lemma token_with_no_lifetime_rejected_witness :
  ∃ token,
    result (create_access_token_for_user Sample.sign Sample.settings
              (PyUser Sample.alice) "s3cr3t" "app:auth" 0)
      (Sample.host (λ _, 1000000000%N) 0) = Return (Some token)
    ∧ ∀ (sk : string) (w' : World),
        jwt_refusal w' "HS256" "s3cr3t" = None →
        (1000000000 ≤ clock w' (reads w'))%N →
        result (get_email_from_token Sample.sign Sample.settings token sk) w'
        = Raise could_not_validate.
Proof.
  apply (token_with_no_lifetime_rejected Sample.sign Sample.settings
           Sample.alice "s3cr3t" "app:auth" 0
           (Sample.host (λ _, 1000000000%N) 0) 1000000000);
    [lia | reflexivity | reflexivity | reflexivity | reflexivity].
Defined.

(** X13: whenever [get_email_from_token] returns, the token parsed, named
    the configured algorithm, was signed with the configured secret key,
    carries the configured audience and an expiry still ahead, and the
    value returned is the subject it carries: a token without an expiry is
    never accepted. *)
Theorem get_email_from_token_returns_only
    (sign : string → string → gmap string json → string)
    (settings : Settings) (token : Token) (sk s : string) (w : World) :
  result (get_email_from_token sign settings token sk) w = Return s →
  ∃ alg claims sig,
    token = Jws alg claims sig
    ∧ alg = JWT_ALGORITHM settings
    ∧ sig = sign alg (SECRET_KEY settings) claims
    ∧ claims !! "aud" = Some (JStr (JWT_AUDIENCE settings))
    ∧ (∃ e, claims !! "exp" = Some (JNum e)
            ∧ (Z.of_N (clock w (reads w)) < e)%Z)
    ∧ claims !! "sub" = Some (JStr s).
Proof.
  destruct token as [raw|alg claims sig].
  - by rewrite get_email_from_token_Malformed.
  - intros H. apply get_email_from_token_returns_iff in H
      as (Halg & _ & Hsig & Hv & p & Hp & <-).
    apply validate_claims_Return in Hv as (_ & _ & Hexp & Haud & _).
    apply JWTPayload_init_Return in Hp as (_ & _ & He & Hsub).
    exists alg, claims, sig. repeat split; try done.
    destruct (Hexp _ He) as (e & [= <-] & Hlt). exists (models.exp p).
    split; [done |].
    pose proof (whole_le (models.exp p)) as Hw.
    destruct (Z.le_gt_cases 0 (models.exp p)); [lia |].
    unfold Jwt.whole in Hlt.
    pose proof (Z.quot_le_mono (models.exp p) 0 1000000 ltac:(lia)
                  ltac:(lia)) as Hq.
    rewrite Z.quot_0_l in Hq by lia. lia.
Qed.

Lemma get_email_from_token_returns_only_witness :
  let claims :=
    models.JWTPayload_dict
      (models.mkJWTPayload "app:auth" 1000000000 2801000000
         "a@example.com") in
  ∃ alg claims' sig,
    Jws "HS256" claims (Sample.sign "HS256" "s3cr3t" claims)
      = Jws alg claims' sig
    ∧ alg = "HS256"
    ∧ sig = Sample.sign alg "s3cr3t" claims'
    ∧ claims' !! "aud" = Some (JStr "app:auth")
    ∧ (∃ e, claims' !! "exp" = Some (JNum e) ∧ (1002000000 < e)%Z)
    ∧ claims' !! "sub" = Some (JStr "a@example.com").
Proof.
  cbv zeta.
  apply (get_email_from_token_returns_only Sample.sign Sample.settings _
           "other" "a@example.com" (Sample.world 1002 0)).
  reflexivity.
Defined.
